(** * Image_king_bot: the conversation state machine and its generation client

    A shallow embedding of [src/Image_king_bot.py].

    - Python [str] is [string]: the UTF-8 bytes of the text.  Equality,
      concatenation, [startswith], [split] on an ASCII separator and the
      substring test agree with Python's on such an encoding.
    - [bytes] is [list Byte.byte].
    - [context.user_data] is the record [user_data]: the program only ever
      uses eight fixed keys, each with values of one type; a key that is
      absent is [None].
    - A handler is a computation in the monad [M]: it threads the
      [user_data], records what it sends in a trace of [event]s and may
      raise.  What it returns is the next conversation state or
      [ConversationHandler.END].
    - The outside world (the HTTP endpoint, Pillow, the chat transport's
      media upload, the random generator) is the record [World]; the
      library functions [int] and [base64.b64decode] are the class
      [Library], with an executable instance [cpython].
    - Transport calls whose result the program never looks at
      ([reply_text], [send_chat_action], [query.answer]) are taken to
      return normally; terminal logging ([print_user]) changes neither the
      session nor the flow and is left out. *)

From Stdlib Require Import ZArith Ascii String DecimalString.
From Stdlib.Strings Require Import Byte.
From stdpp Require Import base option list strings gmap.

Local Open Scope Z_scope.

Definition bytes : Type := list Byte.byte.

(** ** Strings, as the program uses them *)

Module PyStr.

(** [s.startswith(p)] *)
Fixpoint startswith (s p : string) {struct p} : bool :=
  match p with
  | EmptyString => true
  | String a p' =>
      match s with
      | String b s' => Ascii.eqb a b && startswith s' p'
      | EmptyString => false
      end
  end.

(** [needle in hay] for two strings. *)
Fixpoint contains (needle hay : string) : bool :=
  startswith hay needle ||
  match hay with
  | EmptyString => false
  | String _ rest => contains needle rest
  end.

(** [s.split(c)] for a one-character separator. *)
Fixpoint split (c : ascii) (s : string) : list string :=
  match s with
  | EmptyString => [EmptyString]
  | String a rest =>
      if Ascii.eqb a c then EmptyString :: split c rest
      else match split c rest with
           | h :: t => String a h :: t
           | [] => [String a EmptyString]
           end
  end.

(** [s.split(c, 1)]: at most one cut, at the first separator. *)
Fixpoint split1 (c : ascii) (s : string) : list string :=
  match s with
  | EmptyString => [EmptyString]
  | String a rest =>
      if Ascii.eqb a c then [EmptyString; rest]
      else match split1 c rest with
           | h :: t => String a h :: t
           | [] => [String a EmptyString]
           end
  end.

(** The characters [str.isspace] accepts, each as its UTF-8 encoding:
    U+0009..U+000D, U+001C..U+0020, U+0085, U+00A0, U+1680,
    U+2000..U+200A, U+2028, U+2029, U+202F, U+205F, U+3000. *)
Definition of_codes (l : list N) : string :=
  string_of_list_ascii (map ascii_of_N l).

Definition whitespace_codes : list (list N) :=
  (([[9]; [10]; [11]; [12]; [13]; [28]; [29]; [30]; [31]; [32];
     [194; 133]; [194; 160]; [225; 154; 128]] ++
    map (fun k => [226; 128; k])
      [128; 129; 130; 131; 132; 133; 134; 135; 136; 137; 138] ++
    [[226; 128; 168]; [226; 128; 169]; [226; 128; 175]; [226; 129; 159];
     [227; 128; 128]])%list)%N.

Definition whitespace : list string := map of_codes whitespace_codes.

Definition drop (n : nat) (s : string) : string :=
  String.substring n (String.length s - n) s.

(** The first of [toks] that [s] starts with. *)
Definition leading (toks : list string) (s : string) : option string :=
  List.find (startswith s) toks.

Fixpoint lstrip_with (toks : list string) (fuel : nat) (s : string) : string :=
  match fuel with
  | O => s
  | S fuel' =>
      match leading toks s with
      | Some t => lstrip_with toks fuel' (drop (String.length t) s)
      | None => s
      end
  end.

Definition rev (s : string) : string :=
  string_of_list_ascii (List.rev (list_ascii_of_string s)).

Definition lstrip (s : string) : string :=
  lstrip_with whitespace (String.length s) s.

Definition rstrip (s : string) : string :=
  rev (lstrip_with (map rev whitespace) (String.length s) (rev s)).

(** [s.strip()] *)
Definition strip (s : string) : string := rstrip (lstrip s).

(** [len(s)]: the number of code points, that is of bytes that are not
    UTF-8 continuation bytes. *)
Definition is_continuation (a : ascii) : bool :=
  let n := N_of_ascii a in ((128 <=? n) && (n <? 192))%N.

Definition len (s : string) : Z :=
  Z.of_nat (length (filter (fun a => is_continuation a = false) (list_ascii_of_string s))).

(** [s[0]]: the first code point, as a string. *)
Fixpoint continuation_run (s : string) : string :=
  match s with
  | String a rest =>
      if is_continuation a then String a (continuation_run rest) else EmptyString
  | EmptyString => EmptyString
  end.

Definition first (s : string) : option string :=
  match s with
  | EmptyString => None
  | String a rest => Some (String a (continuation_run rest))
  end.

(** [str(n)] for an integer. *)
Definition of_Z (n : Z) : string := NilZero.string_of_int (Z.to_int n).

End PyStr.

(** ** JSON values, as [r.json()] builds them *)

#[warnings="-register-all"]
Inductive json : Type :=
| JNull
| JBool (b : bool)
| JInt (n : Z)
| JFloat (mantissa exponent : Z)
| JStr (s : string)
| JList (l : list json)
| JDict (m : gmap string json).

(** Python's operators on such values; [None] stands for the exception
    the operator raises ([TypeError], [KeyError], [IndexError]). *)
Module Py.

(** [k in j] for a string [k]. *)
Definition contains (k : string) (j : json) : option bool :=
  match j with
  | JDict m => Some (bool_decide (is_Some (m !! k)))
  | JList l =>
      Some (existsb (fun e => match e with
                              | JStr s => String.eqb s k
                              | _ => false
                              end) l)
  | JStr s => Some (PyStr.contains k s)
  | JNull | JBool _ | JInt _ | JFloat _ _ => None
  end.

(** [j[k]] for a string [k]. *)
Definition getitem (j : json) (k : string) : option json :=
  match j with
  | JDict m => m !! k
  | _ => None
  end.

(** [len(j)] *)
Definition len (j : json) : option Z :=
  match j with
  | JDict m => Some (Z.of_nat (size m))
  | JList l => Some (Z.of_nat (length l))
  | JStr s => Some (PyStr.len s)
  | JNull | JBool _ | JInt _ | JFloat _ _ => None
  end.

(** [j[0]] *)
Definition getitem0 (j : json) : option json :=
  match j with
  | JList l => head l
  | JStr s => JStr <$> PyStr.first s
  | _ => None
  end.

End Py.

(** ** Library functions *)

(** [int(s)] and [base64.b64decode(v)]; [None] when they raise. *)
Class Library : Type := {
  py_int : string -> option Z;
  b64decode : json -> option bytes;
}.

(** An executable instance.  [int] covers ASCII input (surrounding
    whitespace, a sign, digits with single underscores between them);
    [b64decode] is CPython's lenient decoder: a value that is not a string
    is a [TypeError], a string with a byte above 127 a [ValueError],
    characters outside the alphabet are skipped, and a group left
    unfinished is a [binascii.Error]. *)
Module CPython.

Definition digit (a : ascii) : option Z :=
  let n := Z.of_N (N_of_ascii a) in
  if (48 <=? n) && (n <=? 57) then Some (n - 48) else None.

Fixpoint digits (s : string) (acc : Z) (after_digit : bool) : option Z :=
  match s with
  | EmptyString => if after_digit then Some acc else None
  | String a rest =>
      match digit a with
      | Some d => digits rest (10 * acc + d) true
      | None =>
          if Ascii.eqb a "_" && after_digit then digits rest acc false else None
      end
  end.

Definition int (s : string) : option Z :=
  match PyStr.strip s with
  | String "-" rest => Z.opp <$> digits rest 0 false
  | String "+" rest => digits rest 0 false
  | body => digits body 0 false
  end.

Definition sextet (a : ascii) : option N :=
  let n := N_of_ascii a in
  (if (65 <=? n) && (n <=? 90) then Some (n - 65)
   else if (97 <=? n) && (n <=? 122) then Some (n - 71)
   else if (48 <=? n) && (n <=? 57) then Some (n + 4)
   else if n =? 43 then Some 62
   else if n =? 47 then Some 63
   else None)%N.

Definition byte_of (n : N) : Byte.byte := byte_of_ascii (ascii_of_N n).

(** [binascii.a2b_base64], not strict. *)
Fixpoint a2b_base64 (s : string) (quad_pos : nat) (leftchar : N) (pads : nat)
    (out : bytes) : option bytes :=
  match s with
  | EmptyString => if Nat.eqb quad_pos 0 then Some (List.rev out) else None
  | String a rest =>
      if Ascii.eqb a "=" then
        if Nat.leb 2 quad_pos then
          if Nat.leb 4 (quad_pos + S pads) then Some (List.rev out)
          else a2b_base64 rest quad_pos leftchar (S pads) out
        else a2b_base64 rest quad_pos leftchar pads out
      else
        match sextet a with
        | None => a2b_base64 rest quad_pos leftchar pads out
        | Some v =>
            match quad_pos with
            | 0%nat => a2b_base64 rest 1 v 0 out
            | 1%nat =>
                a2b_base64 rest 2 (N.land v 15) 0
                  (byte_of (N.lor (N.shiftl leftchar 2) (N.shiftr v 4)) :: out)
            | 2%nat =>
                a2b_base64 rest 3 (N.land v 3) 0
                  (byte_of (N.lor (N.shiftl leftchar 4) (N.shiftr v 2)) :: out)
            | _ =>
                a2b_base64 rest 0 0%N 0
                  (byte_of (N.lor (N.shiftl leftchar 6) v) :: out)
            end
        end
  end.

Definition is_ascii (s : string) : bool :=
  forallb (fun a => (N_of_ascii a <? 128)%N) (list_ascii_of_string s).

Definition decode (v : json) : option bytes :=
  match v with
  | JStr s => if is_ascii s then a2b_base64 s 0 0%N 0 [] else None
  | _ => None
  end.

End CPython.

#[export] Instance cpython : Library :=
  {| py_int := CPython.int; b64decode := CPython.decode |}.

(** ** The outside world *)

(** The JSON body the program posts. [cfg_scale] is the float [7.0], kept
    as the integer 7. *)
Record payload : Type := {
  text_prompts : list string;
  cfg_scale : Z;
  width : Z;
  height : Z;
  samples : Z;
}.

(** What [requests.post] does: it raises, or it gives a response with a
    [status_code] and a body that [r.json()] parses ([None] when it
    raises). *)
Inductive http_result : Type :=
| RequestRaised
| Response (status_code : Z) (body : option json).

Record World : Type := {
  requests_post : payload -> http_result;
  (** Pillow's re-encoding inside [compress_jpeg]; [None] when it raises. *)
  pillow_jpeg : bytes -> option bytes;
  (** [bot.send_photo] and [bot.send_document]: [false] when they raise. *)
  send_photo : bytes -> string -> bool;
  send_document : bytes -> string -> bool;
  (** [reply_media_group]: [false] when it raises. *)
  reply_media_group : list bytes -> bool;
  (** The random generator's next draw. *)
  entropy : N;
}.

(** [random.randint(a, b)] *)
Definition randint (W : World) (a b : Z) : Z :=
  a + Z.of_N (entropy W) mod (b - a + 1).

(** ** Configuration *)

Definition ALLOWED_DIMS : list string :=
  ["1024x1024"; "1152x896"; "1216x832"; "1344x768";
   "1536x640"; "640x1536"; "768x1344"; "832x1216"; "896x1152"].

Inductive state : Type :=
| ASK_NAME | ASK_PHONE | VERIFY_OTP | DIMENSION_CHOICE
| AWAIT_PROMPT | AFTER_IMAGE | EDIT_PROMPT | REGEN_PROMPT.

#[export] Instance state_eq_dec : EqDecision state.
Proof. solve_decision. Defined.

(** What a handler returns: a state, or [ConversationHandler.END]. *)
Inductive outcome : Type :=
| Next (s : state)
| END.

#[export] Instance outcome_eq_dec : EqDecision outcome.
Proof. solve_decision. Defined.

(** ** Helpers *)

Definition generate_otp (W : World) : string :=
  PyStr.of_Z (randint W 1000 9999).

Definition compress_jpeg (W : World) (image_bytes : bytes) : bytes :=
  match pillow_jpeg W image_bytes with
  | Some jpeg => jpeg
  | None => image_bytes
  end.

Section Client.
Context `{Library}.

(** The second [try] block of [generate_image_sync]: [Some (Some b)] when
    it returns the decoded image, [Some None] when the test is false and
    control falls out of the block, [None] when an exception is caught. *)
Definition artifact_image (body : option json) : option (option bytes) :=
  j ← body;
  has_artifacts ← Py.contains "artifacts" j;
  if has_artifacts : bool then
    artifacts ← Py.getitem j "artifacts";
    n ← Py.len artifacts;
    if 0 <? n then
      first ← Py.getitem0 artifacts;
      has_base64 ← Py.contains "base64" first;
      if has_base64 : bool then
        b64 ← Py.getitem first "base64";
        image ← b64decode b64;
        Some (Some image)
      else Some None
    else Some None
  else Some None.

(** The [payload] of [generate_image_sync]. *)
Definition text_to_image (prompt : string) (width height : Z) : payload :=
  {| text_prompts := [prompt]; cfg_scale := 7;
     width := width; height := height; samples := 1 |}.

Definition generate_image_sync (W : World) (prompt : string) (width height : Z)
    : bool * option bytes :=
  match requests_post W (text_to_image prompt width height) with
  | RequestRaised => (false, None)
  | Response status_code body =>
      if negb (status_code =? 200) then (false, None)
      else
        match artifact_image body with
        | Some (Some image) => (true, Some image)
        | Some None => (false, None)
        | None => (false, None)
        end
  end.

End Client.

(** ** The session *)

Record user_data : Type := {
  name : option string;
  phone : option string;
  otp : option string;
  verified : option bool;
  dimension : option string;
  last_prompt : option string;
  last_image : option bytes;
  gallery : option (list bytes);
}.

(** [context.user_data.clear()] leaves this. *)
Definition cleared : user_data :=
  {| name := None; phone := None; otp := None; verified := None;
     dimension := None; last_prompt := None; last_image := None;
     gallery := None |}.

Definition with_name (v : option string) (u : user_data) : user_data :=
  {| name := v; phone := phone u; otp := otp u; verified := verified u;
     dimension := dimension u; last_prompt := last_prompt u;
     last_image := last_image u; gallery := gallery u |}.

Definition with_phone (v : option string) (u : user_data) : user_data :=
  {| name := name u; phone := v; otp := otp u; verified := verified u;
     dimension := dimension u; last_prompt := last_prompt u;
     last_image := last_image u; gallery := gallery u |}.

Definition with_otp (v : option string) (u : user_data) : user_data :=
  {| name := name u; phone := phone u; otp := v; verified := verified u;
     dimension := dimension u; last_prompt := last_prompt u;
     last_image := last_image u; gallery := gallery u |}.

Definition with_verified (v : option bool) (u : user_data) : user_data :=
  {| name := name u; phone := phone u; otp := otp u; verified := v;
     dimension := dimension u; last_prompt := last_prompt u;
     last_image := last_image u; gallery := gallery u |}.

Definition with_dimension (v : option string) (u : user_data) : user_data :=
  {| name := name u; phone := phone u; otp := otp u; verified := verified u;
     dimension := v; last_prompt := last_prompt u;
     last_image := last_image u; gallery := gallery u |}.

Definition with_last_prompt (v : option string) (u : user_data) : user_data :=
  {| name := name u; phone := phone u; otp := otp u; verified := verified u;
     dimension := dimension u; last_prompt := v;
     last_image := last_image u; gallery := gallery u |}.

Definition with_last_image (v : option bytes) (u : user_data) : user_data :=
  {| name := name u; phone := phone u; otp := otp u; verified := verified u;
     dimension := dimension u; last_prompt := last_prompt u;
     last_image := v; gallery := gallery u |}.

Definition with_gallery (v : option (list bytes)) (u : user_data) : user_data :=
  {| name := name u; phone := phone u; otp := otp u; verified := verified u;
     dimension := dimension u; last_prompt := last_prompt u;
     last_image := last_image u; gallery := v |}.

(** ** What a handler sends *)

(** An inline button: its label and its [callback_data]. *)
Definition button : Type := string * string.

Inductive event : Type :=
| Answer
| Reply (text : string)
| ReplyMarkup (text : string) (keyboard : list (list button))
| ChatAction (action : string)
| Generate (prompt : string) (width height : Z) (success : bool)
| SendPhoto (photo : bytes) (caption : string) (delivered : bool)
| SendDocument (document : bytes) (caption : string) (delivered : bool)
| MediaGroup (media : list bytes) (delivered : bool)
| ReplyPhoto (photo : bytes).

(** ** The handler monad: session, trace, exceptions *)

Definition M (A : Type) : Type :=
  user_data -> option A * user_data * list event.

Definition ret {A} (a : A) : M A := fun u => (Some a, u, []).

Definition bind {A B} (m : M A) (k : A -> M B) : M B :=
  fun u =>
    match m u with
    | (Some a, u', t) =>
        match k a u' with
        | (r, u'', t') => (r, u'', t ++ t')
        end
    | (None, u', t) => (None, u', t)
    end.

Definition raise {A} : M A := fun u => (None, u, []).
Definition get {A} (field : user_data -> A) : M A := fun u => (Some (field u), u, []).
Definition modify (f : user_data -> user_data) : M unit := fun u => (Some tt, f u, []).
Definition emit (e : event) : M unit := fun u => (Some tt, u, [e]).

(** A value that may be an exception, brought into the monad. *)
Definition try {A} (o : option A) : M A :=
  match o with
  | Some a => ret a
  | None => raise
  end.

Declare Scope handler_scope.
Delimit Scope handler_scope with handler.
Bind Scope handler_scope with M.

Notation "x <- c1 ;; c2" := (bind c1 (fun x => c2))
  (at level 100, c1 at next level, right associativity) : handler_scope.
Notation "c1 ;; c2" := (bind c1 (fun _ => c2))
  (at level 100, right associativity) : handler_scope.

Local Open Scope handler_scope.

(** The three components of a run. [returned] is [None] when the handler
    raised. *)
Definition returned {A} (m : M A) (u : user_data) : option A := (m u).1.1.
Definition session {A} (m : M A) (u : user_data) : user_data := (m u).1.2.
Definition trace {A} (m : M A) (u : user_data) : list event := (m u).2.

Definition reply_text (text : string) : M unit := emit (Reply text).
Definition reply_markup (text : string) (kb : list (list button)) : M unit :=
  emit (ReplyMarkup text kb).
Definition send_chat_action : M unit := emit (ChatAction "upload_photo").
Definition answer : M unit := emit Answer.

(** Python's truth value of a [str] or [None]. *)
Definition truthy (v : option string) : bool :=
  match v with
  | Some s => negb (String.eqb s "")
  | None => false
  end.

Definition nl : string := String (ascii_of_nat 10) "".

(** [l[-n:]] *)
Definition last_n {A} (n : nat) (l : list A) : list A :=
  drop (length l - n) l.

(** [l[1]]; an [IndexError] when the list is shorter. *)
Definition index1 {A} (l : list A) : option A := l !! 1%nat.

(** The keyboard [verify_otp_handler] builds: the loop over
    [enumerate(ALLOWED_DIMS, 1)], a row closed after every third button. *)
Fixpoint button_rows (dims : list string) (i : Z) (row : list button)
    (buttons : list (list button)) : list (list button) :=
  match dims with
  | [] => match row with
          | [] => buttons
          | _ => buttons ++ [row]
          end
  | d :: rest =>
      let row := row ++ [(d, "dim:" +:+ d)] in
      if i mod 3 =? 0 then button_rows rest (i + 1) [] (buttons ++ [row])
      else button_rows rest (i + 1) row buttons
  end.

Definition dimension_keyboard : list (list button) :=
  button_rows ALLOWED_DIMS 1 [] [].

(** The keyboard shown under every delivered image. *)
Definition action_keyboard : list (list button) :=
  [[("edit", "act:edit"); ("save gallery", "act:save")];
   [("no gallery", "act:nosave"); ("Generate Again", "act:regen")]].

(** ** Handler functions *)

Section Handlers.
Context `{Library}.
Variable W : World.

Definition generate_image_async (prompt : string) (width height : Z)
    : M (bool * option bytes) :=
  let r := generate_image_sync W prompt width height in
  emit (Generate prompt width height r.1) ;;
  ret r.

Definition safe_send_image_by_bot (image_bytes : bytes) (caption : string) : M bool :=
  let send_bytes := compress_jpeg W image_bytes in
  if send_photo W send_bytes caption then
    emit (SendPhoto send_bytes caption true) ;;
    ret true
  else
    emit (SendPhoto send_bytes caption false) ;;
    if send_document W image_bytes caption then
      emit (SendDocument image_bytes caption true) ;;
      ret true
    else
      emit (SendDocument image_bytes caption false) ;;
      ret false.

(** [width, height = map(int, dim.split("x"))]; [None] when it raises. *)
Definition parse_dimension (dim : string) : option (Z * Z) :=
  match PyStr.split "x" dim with
  | [a; b] => w ← py_int a; h ← py_int b; Some (w, h)
  | _ => None
  end.

Definition cmd_start : M outcome :=
  modify (fun _ => cleared) ;;
  reply_text "👋 Welcome! What's your *name*?" ;;
  ret (Next ASK_NAME).

Definition ask_phone (text : string) : M outcome :=
  let name := PyStr.strip text in
  modify (with_name (Some name)) ;;
  reply_text "📱 Please enter your mobile number:" ;;
  ret (Next ASK_PHONE).

Definition send_otp (text : string) : M outcome :=
  let phone := PyStr.strip text in
  modify (with_phone (Some phone)) ;;
  let otp := generate_otp W in
  modify (with_otp (Some otp)) ;;
  reply_text ("🔐 Your OTP is: *" +:+ otp +:+ "*" +:+ nl +:+ nl +:+
              "Please type it here to verify.") ;;
  ret (Next VERIFY_OTP).

Definition verify_otp_handler (text : string) : M outcome :=
  let entered := PyStr.strip text in
  expected <- get otp ;;
  if truthy expected && bool_decide (Some entered = expected) then
    modify (with_verified (Some true)) ;;
    reply_markup "✅ Verified! Choose image dimensions:" dimension_keyboard ;;
    ret (Next DIMENSION_CHOICE)
  else
    reply_text "❌ Wrong OTP. Please try again." ;;
    ret (Next VERIFY_OTP).

Definition dimension_chosen (data : string) : M outcome :=
  answer ;;
  if negb (PyStr.startswith data "dim:") then
    reply_text "Invalid selection." ;;
    ret (Next DIMENSION_CHOICE)
  else
    dim <- try (index1 (PyStr.split1 ":" data)) ;;
    modify (with_dimension (Some dim)) ;;
    reply_text ("Dimension set to *" +:+ dim +:+ "*." +:+ nl +:+ nl +:+
                "Now send me the text prompt (describe the image):") ;;
    ret (Next AWAIT_PROMPT).

Definition receive_prompt_and_generate (text : string) : M outcome :=
  let prompt := PyStr.strip text in
  modify (with_last_prompt (Some prompt)) ;;
  dim <- get dimension ;;
  match dim with
  | Some dim_text =>
      if truthy dim then
        size <- try (parse_dimension dim_text) ;;
        let '(width, height) := size in
        send_chat_action ;;
        reply_text "🎨 Generating your image... this may take a few seconds. Please wait ⏳" ;;
        r <- generate_image_async prompt width height ;;
        match r with
        | (true, Some image_bytes) =>
            modify (with_last_image (Some image_bytes)) ;;
            let caption := "✨ Here’s your image for:" +:+ nl +:+ "`" +:+ prompt +:+ "`" in
            sent_ok <- safe_send_image_by_bot image_bytes caption ;;
            if sent_ok : bool then
              reply_markup "Choose next action:" action_keyboard ;;
              ret (Next AFTER_IMAGE)
            else
              reply_text "❌ Generated image but failed to send. Try again." ;;
              ret (Next AWAIT_PROMPT)
        | _ =>
            reply_text "❌ Failed to generate image. Try again later or try a different prompt." ;;
            ret (Next AWAIT_PROMPT)
        end
      else
        reply_text "⚠️ Dimension not set. Please /start and choose a dimension." ;;
        ret END
  | None =>
      reply_text "⚠️ Dimension not set. Please /start and choose a dimension." ;;
      ret END
  end.

Definition after_image_action (data : string) : M outcome :=
  answer ;;
  action <- try (index1 (PyStr.split1 ":" data)) ;;
  if String.eqb action "edit" then
    reply_text "✏️ What would you like to edit in the image? Describe the changes:" ;;
    ret (Next EDIT_PROMPT)
  else if String.eqb action "save" then
    img <- get last_image ;;
    match img with
    | None =>
        reply_text "No image available to save." ;;
        ret (Next AFTER_IMAGE)
    | Some img =>
        stored <- get gallery ;;
        let gallery := default [] stored ++ [img] in
        modify (with_gallery (Some (last_n 20 gallery))) ;;
        reply_text "✅ Saved to gallery." ;;
        ret (Next AFTER_IMAGE)
    end
  else if String.eqb action "nosave" then
    modify (with_last_image None) ;;
    reply_text "Okay — image not saved to gallery." ;;
    ret (Next AFTER_IMAGE)
  else if String.eqb action "regen" then
    reply_text "🔁 What type of image do you want now? Send a new prompt:" ;;
    ret (Next REGEN_PROMPT)
  else
    reply_text "Unknown action." ;;
    ret (Next AFTER_IMAGE).

Definition edit_prompt_handler (text : string) : M outcome :=
  let edit_instructions := PyStr.strip text in
  stored <- get last_prompt ;;
  let orig_prompt := default "" stored in
  if negb (truthy (Some orig_prompt)) then
    reply_text "Original prompt missing. Please generate an image first." ;;
    ret (Next AWAIT_PROMPT)
  else
    let combined_prompt := orig_prompt +:+ ". Edit: " +:+ edit_instructions in
    modify (with_last_prompt (Some combined_prompt)) ;;
    dim <- get dimension ;;
    match dim with
    | Some dim_text =>
        if truthy dim then
          size <- try (parse_dimension dim_text) ;;
          let '(width, height) := size in
          send_chat_action ;;
          reply_text "🎨 Applying edits... please wait ⏳" ;;
          r <- generate_image_async combined_prompt width height ;;
          match r with
          | (true, Some image_bytes) =>
              modify (with_last_image (Some image_bytes)) ;;
              let caption := "✨ Here’s the *edited* image for:" +:+ nl +:+
                             "`" +:+ combined_prompt +:+ "`" in
              sent <- safe_send_image_by_bot image_bytes caption ;;
              if sent : bool then
                reply_markup "Choose next action:" action_keyboard ;;
                ret (Next AFTER_IMAGE)
              else
                reply_text "❌ Edited image generated but failed to send." ;;
                ret (Next AFTER_IMAGE)
          | _ =>
              reply_text "❌ Failed to edit the image. Try again." ;;
              ret (Next AFTER_IMAGE)
          end
        else
          reply_text "Dimension missing. Please /start and choose dimension." ;;
          ret END
    | None =>
        reply_text "Dimension missing. Please /start and choose dimension." ;;
        ret END
    end.

Definition regen_prompt_handler (text : string) : M outcome :=
  let prompt := PyStr.strip text in
  dim <- get dimension ;;
  match dim with
  | Some dim_text =>
      if truthy dim then
        size <- try (parse_dimension dim_text) ;;
        let '(width, height) := size in
        modify (with_last_prompt (Some prompt)) ;;
        send_chat_action ;;
        reply_text "🎨 Generating new image... please wait ⏳" ;;
        r <- generate_image_async prompt width height ;;
        match r with
        | (true, Some image_bytes) =>
            modify (with_last_image (Some image_bytes)) ;;
            let caption := "✨ Here’s your new image for:" +:+ nl +:+ "`" +:+ prompt +:+ "`" in
            sent <- safe_send_image_by_bot image_bytes caption ;;
            if sent : bool then
              reply_markup "Choose next action:" action_keyboard ;;
              ret (Next AFTER_IMAGE)
            else
              reply_text "❌ Generated but failed to send." ;;
              ret (Next AWAIT_PROMPT)
        | _ =>
            reply_text "❌ Failed to generate. Try again." ;;
            ret (Next AWAIT_PROMPT)
        end
      else
        reply_text "Dimension missing. Start with /start." ;;
        ret END
  | None =>
      reply_text "Dimension missing. Start with /start." ;;
      ret END
  end.

(** The fallback loop of [cmd_gallery]: one [reply_photo] per image. *)
Fixpoint reply_each (to_send : list bytes) : M unit :=
  match to_send with
  | [] => ret tt
  | b :: rest => emit (ReplyPhoto b) ;; reply_each rest
  end.

(** [cmd_gallery] returns nothing: it is no part of the conversation. *)
Definition cmd_gallery : M unit :=
  stored <- get gallery ;;
  let gallery := default [] stored in
  match gallery with
  | [] => reply_text "📭 Your gallery is empty."
  | _ =>
      let to_send := last_n 5 gallery in
      if reply_media_group W to_send then emit (MediaGroup to_send true)
      else
        emit (MediaGroup to_send false) ;;
        reply_each to_send
  end.

Definition cmd_cancel : M outcome :=
  reply_text "Cancelled. You can begin again with /start." ;;
  ret END.

End Handlers.

(** ** The conversation, as [main] configures it *)

Inductive update : Type :=
| Command (command : string)
| Text (text : string)
| CallbackQuery (data : string).

(** Which kind of update a state's handler takes: a [MessageHandler] on
    text, or a [CallbackQueryHandler] on a button press. *)
Inductive input_kind : Type :=
| TextInput
| ButtonInput.

#[export] Instance input_kind_eq_dec : EqDecision input_kind.
Proof. solve_decision. Defined.

Section Conversation.
Context `{Library}.

(** The [states] table: the kind of input, the pattern a button payload
    has to start with, and the handler. *)
Definition states (W : World) (s : state) : input_kind * string * (string -> M outcome) :=
  match s with
  | ASK_NAME => (TextInput, "", ask_phone)
  | ASK_PHONE => (TextInput, "", send_otp W)
  | VERIFY_OTP => (TextInput, "", verify_otp_handler)
  | DIMENSION_CHOICE => (ButtonInput, "dim:", dimension_chosen)
  | AWAIT_PROMPT => (TextInput, "", receive_prompt_and_generate W)
  | AFTER_IMAGE => (ButtonInput, "act:", after_image_action)
  | EDIT_PROMPT => (TextInput, "", edit_prompt_handler W)
  | REGEN_PROMPT => (TextInput, "", regen_prompt_handler W)
  end.

Definition accepts (s : state) : input_kind :=
  match s with
  | DIMENSION_CHOICE | AFTER_IMAGE => ButtonInput
  | _ => TextInput
  end.

(** One user's bot: where the conversation stands ([None] outside any
    conversation) and the user's [user_data]. *)
Record bot : Type := {
  conversation : option state;
  data : user_data;
}.

Definition start_of_process : bot :=
  {| conversation := None; data := cleared |}.

(** The state after a handler ran: what it returned, or the state before
    when it raised. *)
Definition settle (before : option state) (r : option outcome) : option state :=
  match r with
  | Some (Next s) => Some s
  | Some END => None
  | None => before
  end.

Definition run_handler (m : M outcome) (b : bot) : bot * list event :=
  ({| conversation := settle (conversation b) (returned m (data b));
      data := session m (data b) |},
   trace m (data b)).

Definition ignore (b : bot) : bot * list event := (b, []).

(** The entry point [/start] re-enters from every state
    ([allow_reentry]); then the handler of the current state; then the
    fallback [/cancel]; [/gallery] is a handler of its own. *)
Definition handle_update (W : World) (upd : update) (b : bot) : bot * list event :=
  match upd with
  | Command c =>
      if String.eqb c "start" then run_handler cmd_start b
      else if String.eqb c "cancel" then
        match conversation b with
        | Some _ => run_handler cmd_cancel b
        | None => ignore b
        end
      else if String.eqb c "gallery" then
        ({| conversation := conversation b;
            data := session (cmd_gallery W) (data b) |},
         trace (cmd_gallery W) (data b))
      else ignore b
  | Text text =>
      match conversation b with
      | Some s =>
          match states W s with
          | (TextInput, _, handler) => run_handler (handler text) b
          | _ => ignore b
          end
      | None => ignore b
      end
  | CallbackQuery payload =>
      match conversation b with
      | Some s =>
          match states W s with
          | (ButtonInput, pattern, handler) =>
              if PyStr.startswith payload pattern then run_handler (handler payload) b
              else ignore b
          | _ => ignore b
          end
      | None => ignore b
      end
  end.

Fixpoint run (steps : list (World * update)) (b : bot) : bot :=
  match steps with
  | [] => b
  | (W, upd) :: rest => run rest (handle_update W upd b).1
  end.

Definition reachable (b : bot) : Prop :=
  exists steps, run steps start_of_process = b.

End Conversation.

(** ** The three places that call the Generation Client *)

Inductive call_site : Type :=
| InitialPrompt
| Edit
| Regenerate.

#[export] Instance call_site_eq_dec : EqDecision call_site.
Proof. solve_decision. Defined.

(** The state whose handler makes the call. *)
Definition state_of (c : call_site) : state :=
  match c with
  | InitialPrompt => AWAIT_PROMPT
  | Edit => EDIT_PROMPT
  | Regenerate => REGEN_PROMPT
  end.

Definition handler_at `{Library} (W : World) (c : call_site) : string -> M outcome :=
  (states W (state_of c)).2.

(** Reading a trace: was the Generation Client called, and did a call
    fail? *)
Definition is_generate (e : event) : bool :=
  match e with
  | Generate _ _ _ _ => true
  | _ => false
  end.

Definition is_failed_generate (e : event) : bool :=
  match e with
  | Generate _ _ _ false => true
  | _ => false
  end.

Definition invoked_generation (t : list event) : bool := existsb is_generate t.
Definition failed_generation (t : list event) : bool := existsb is_failed_generate t.

(** The gallery as [user_data.get('gallery', [])] reads it. *)
Definition stored_gallery (u : user_data) : list bytes := default [] (gallery u).

(** The gallery's capacity. *)
Definition bounded (u : user_data) : Prop := (length (stored_gallery u) <= 20)%nat.

(** ** Sample worlds and sessions *)

(** A world whose endpoint always answers [r] and whose uploads succeed
    or fail together; its next random draw makes the OTP 4821. *)
Definition world (r : http_result) (delivers : bool) : World :=
  {| requests_post := fun _ => r;
     pillow_jpeg := fun _ => None;
     send_photo := fun _ _ => delivers;
     send_document := fun _ _ => delivers;
     reply_media_group := fun _ => delivers;
     entropy := 3821 |}.

Definition offline : World := world RequestRaised true.

(** A body with an image: the base64 of the two bytes "hi". *)
Definition picture : json :=
  JDict {[ "artifacts" := JList [JDict {[ "base64" := JStr "aGk=" ]}] ]}.

(** A body whose [base64] field is there but does not decode. *)
Definition undecodable : json :=
  JDict {[ "artifacts" := JList [JDict {[ "base64" := JStr "a" ]}] ]}.

Definition online : World := world (Response 200 (Some picture)) true.

Definition hi : bytes := [Byte.x68; Byte.x69].

(** After registration, before verification. *)
Definition registered : user_data :=
  {| name := Some "Ava"; phone := Some "555-0100"; otp := Some "4821";
     verified := None; dimension := None; last_prompt := None;
     last_image := None; gallery := None |}.

(** After a first image. *)
Definition ava : user_data :=
  {| name := Some "Ava"; phone := Some "555-0100"; otp := Some "4821";
     verified := Some true; dimension := Some "1024x1024";
     last_prompt := Some "a red fox"; last_image := Some hi; gallery := None |}.

(** A full gallery: the image [hi] saved twenty times. *)
Definition collector : user_data := with_gallery (Some (replicate 20 hi)) ava.

(** ** More readings of a trace, of a string and of a state *)

(** The requests made to the Generation Client: prompt, width, height. *)
Definition generation_calls (t : list event) : list (string * Z * Z) :=
  flat_map (fun e => match e with
                     | Generate p w h _ => [(p, w, h)]
                     | _ => []
                     end) t.



Definition is_delivery (e : event) : bool :=
  match e with
  | SendPhoto _ _ true | SendDocument _ _ true => true
  | _ => false
  end.

(** Did an upload of the image go through? *)
Definition delivered (t : list event) : bool := existsb is_delivery t.

Definition is_digit (a : ascii) : bool :=
  ((48 <=? N_of_ascii a) && (N_of_ascii a <=? 57))%N.

(** The button [verify_otp_handler] makes of an allowed dimension. *)
Definition dimension_button (d : string) : button := (d, "dim:" +:+ d).

(** [c.join(parts)] for a one-character separator. *)
Fixpoint join (c : ascii) (parts : list string) : string :=
  match parts with
  | [] => ""
  | [p] => p
  | p :: rest => p +:+ String c (join c rest)
  end.

(** [c in s] for a character. *)
Fixpoint has_char (c : ascii) (s : string) : bool :=
  match s with
  | EmptyString => false
  | String a rest => Ascii.eqb a c || has_char c rest
  end.





(** ** Proof tools *)

#[global] Arguments dimension_keyboard : simpl never.
#[global] Arguments PyStr.strip : simpl never.

Ltac unfold_handler :=
  unfold handler_at, states, returned, session, trace, cmd_start, ask_phone, send_otp,
    verify_otp_handler, dimension_chosen, receive_prompt_and_generate,
    after_image_action, edit_prompt_handler, regen_prompt_handler, cmd_cancel,
    generate_image_async, safe_send_image_by_bot,
    reply_text, reply_markup, send_chat_action, answer, try, bind, ret, raise, get,
    modify, emit.

(** The scrutinee on which a stuck [match] finally depends. *)
Ltac innermost x :=
  lazymatch x with
  | context [match ?y with _ => _ end] => innermost y
  | _ => x
  end.

Ltac branch :=
  match goal with
  | |- context [match ?x with _ => _ end] =>
      let y := innermost x in destruct y eqn:?
  end.

(** Follow every path of a handler. *)
Ltac run_through :=
  cbn; repeat (branch; cbn in *; simplify_eq; cbn; try done).

(** ** The Generation Client *)

Section ClientFacts.
Context `{Library}.

(** The one shape of body from which the second [try] block returns an
    image. *)
Lemma artifact_image_Some body image :
  artifact_image body = Some (Some image) <->
  exists m e rest v,
    body = Some (JDict m) /\
    m !! "artifacts" = Some (JList (JDict e :: rest)) /\
    e !! "base64" = Some v /\
    b64decode v = Some image.
Proof.
  split.
  - unfold artifact_image. intros Hr.
    destruct body as [j|]; [|done].
    destruct j as [| | | | | |m]; cbn in Hr; try done;
      try (by repeat case_match).
    destruct (m !! "artifacts") as [a|] eqn:Ha; cbn in Hr; [|done].
    destruct a as [| | | |s|l|]; cbn in Hr; try done;
      try (by repeat case_match).
    { destruct (0 <? PyStr.len s); [|done].
      destruct (PyStr.first s) as [c|]; cbn in Hr; [|done].
      by destruct (PyStr.contains "base64" c). }
    destruct l as [|first rest]; cbn in Hr; [done|].
    destruct first as [| | | | | |e]; cbn in Hr; try done;
      try (by repeat case_match).
    destruct (e !! "base64") as [v|] eqn:Hv; cbn in Hr; [|done].
    destruct (b64decode v) as [i|] eqn:Hd; cbn in Hr; [|done].
    destruct (0 <? _); [|done]. simplify_eq. by exists m, e, rest, v.
  - intros (m & e & rest & v & -> & Ha & Hv & Hd).
    unfold artifact_image. cbn. rewrite Ha. cbn. rewrite Hv. cbn. rewrite Hd. cbn.
    by destruct (Z.ltb_spec 0 (Z.of_nat (S (length rest)))); [|lia].
Qed.

Lemma generate_image_sync_cases W prompt width height :
  (exists image, generate_image_sync W prompt width height = (true, Some image)) \/
  generate_image_sync W prompt width height = (false, None).
Proof.
  unfold generate_image_sync.
  repeat (branch; cbn; eauto).
Qed.

(** C8, as amended.  The synchronous call returns success with image
    bytes if and only if the request did not raise, the status is 200,
    the parsed body is an object whose [artifacts] is a non-empty list,
    the first element of that list is an object with a [base64] field,
    and that field's value decodes; the bytes are the decoded value.  In
    every other case the call returns exactly (failure, no bytes). *)
Theorem generate_image_sync_outcomes W prompt width height :
  (forall image,
     generate_image_sync W prompt width height = (true, Some image) <->
     exists m e rest v,
       requests_post W (text_to_image prompt width height) =
         Response 200 (Some (JDict m)) /\
       m !! "artifacts" = Some (JList (JDict e :: rest)) /\
       e !! "base64" = Some v /\
       b64decode v = Some image) /\
  ((exists image, generate_image_sync W prompt width height = (true, Some image)) \/
   generate_image_sync W prompt width height = (false, None)).
Proof.
  split; [|apply generate_image_sync_cases].
  intros image. unfold generate_image_sync. split.
  - destruct (requests_post W _) as [|status body] eqn:Hp; [done|].
    destruct (Z.eqb_spec status 200) as [->|]; cbn; [|done].
    destruct (artifact_image body) as [[i|]|] eqn:Hb; try done.
    intros [= ->]. apply artifact_image_Some in Hb as (m & e & rest & v & -> & ?).
    by exists m, e, rest, v.
  - intros (m & e & rest & v & Hp & Ha). rewrite Hp, Z.eqb_refl.
    assert (artifact_image (Some (JDict m)) = Some (Some image)) as Hb
      by (apply artifact_image_Some; by exists m, e, rest, v).
    cbn [negb]. by rewrite Hb.
Qed.

End ClientFacts.

(** C8, as stated, fails: a 200 response whose body has a non-empty
    [artifacts] list with a [base64] field in its first element, the value
    of which is not valid base64, is a failure. *)
Lemma undecodable_image_is_failure :
  ~ (forall (L : Library) (W : World) (prompt : string) (width height : Z),
       (exists image, generate_image_sync W prompt width height = (true, Some image)) <->
       (exists m e rest,
          requests_post W (text_to_image prompt width height) =
            Response 200 (Some (JDict m)) /\
          m !! "artifacts" = Some (JList (JDict e :: rest)) /\
          is_Some (e !! "base64"))).
Proof.
  intros Hc.
  destruct (Hc cpython (world (Response 200 (Some undecodable)) true) "a red fox" 1024 1024)
    as [_ Hback].
  destruct Hback as [image Himage].
  - exists {[ "artifacts" := JList [JDict {[ "base64" := JStr "a" ]}] ]},
      {[ "base64" := JStr "a" ]}, [].
    split; [reflexivity|]. split; [reflexivity|]. by eexists.
  - vm_compute in Himage. discriminate.
Qed.

(** ** The handlers *)

Lemma append_nonempty (a b : string) : a <> "" -> a +:+ b <> "".
Proof. by destruct a. Qed.

Lemma last_n_length {A} (n : nat) (l : list A) : (length (last_n n l) <= n)%nat.
Proof. unfold last_n. rewrite length_drop. lia. Qed.

Lemma last_n_full {A} (x : A) (l : list A) (y : A) :
  length (x :: l) = 20%nat -> last_n 20 ((x :: l) ++ [y]) = l ++ [y].
Proof. intros Hl. unfold last_n. rewrite length_app, Hl. reflexivity. Qed.

(** The buttons offered are the nine allow-listed pairs, one each. *)
Lemma keyboard_offers :
  concat dimension_keyboard = map (fun d => (d, "dim:" +:+ d)) ALLOWED_DIMS.
Proof. reflexivity. Qed.

Section HandlerFacts.
Context `{Library}.

Lemma accepts_states W s : (states W s).1.1 = accepts s.
Proof. by destruct s. Qed.

(** C1, as amended.  At each of the three call sites, when the
    Generation Client returns failure the session's [last_image] is what
    it was before the call and the conversation does not end: the
    handler returns AWAIT_PROMPT, a text-input state, at the initial
    prompt and at regenerate, and AFTER_IMAGE, a button state, at
    edit. *)
Theorem generation_failure_keeps_image W c text u :
  failed_generation (trace (handler_at W c text) u) = true ->
  last_image (session (handler_at W c text) u) = last_image u /\
  returned (handler_at W c text) u =
    Some (Next match c with
               | Edit => AFTER_IMAGE
               | InitialPrompt | Regenerate => AWAIT_PROMPT
               end) /\
  accepts AWAIT_PROMPT = TextInput /\
  accepts AFTER_IMAGE = ButtonInput.
Proof.
  destruct c; unfold_handler; run_through.
Qed.

(** C2, as amended.  In DIMENSION_CHOICE a payload [dim:<token>] sets
    the session's dimension to <token> and moves to AWAIT_PROMPT,
    whatever the token is; the allow-list of nine pairs decides only
    which payloads the keyboard offers. *)
Theorem dimension_chosen_stores_any_token token u payload :
  (session (dimension_chosen ("dim:" +:+ token)) u = with_dimension (Some token) u /\
   returned (dimension_chosen ("dim:" +:+ token)) u = Some (Next AWAIT_PROMPT)) /\
  (payload ∈ (concat dimension_keyboard).*2 <->
     exists d, d ∈ ALLOWED_DIMS /\ payload = "dim:" +:+ d) /\
  length ALLOWED_DIMS = 9%nat.
Proof.
  split; [split; reflexivity|]. split; [|reflexivity].
  rewrite keyboard_offers, <- list_fmap_compose, list_elem_of_fmap. split.
  - intros (d & -> & Hd). by exists d.
  - intros (d & Hd & ->). by exists d.
Qed.

Lemma edit_sets_prompt W u text p :
  last_prompt u = Some p -> p <> "" ->
  last_prompt (session (edit_prompt_handler W text) u) =
    Some (p +:+ ". Edit: " +:+ PyStr.strip text).
Proof.
  intros Hp Hne. unfold_handler. cbn. rewrite Hp. cbn.
  destruct (String.eqb_spec p ""); [done|].
  run_through.
Qed.

(** C4, as amended.  With a non-empty [last_prompt], the edit handler
    sets [last_prompt] to the previous [last_prompt], then ". Edit: ",
    then the user's text with its leading and trailing whitespace
    stripped; a second edit chains onto this composed prompt. *)
Theorem edit_chains W W' u p text text' :
  last_prompt u = Some p -> p <> "" ->
  let u1 := session (edit_prompt_handler W text) u in
  let u2 := session (edit_prompt_handler W' text') u1 in
  last_prompt u1 = Some (p +:+ ". Edit: " +:+ PyStr.strip text) /\
  last_prompt u2 =
    Some ((p +:+ ". Edit: " +:+ PyStr.strip text) +:+ ". Edit: " +:+ PyStr.strip text').
Proof.
  intros Hp Hne u1 u2.
  assert (last_prompt u1 = Some (p +:+ ". Edit: " +:+ PyStr.strip text)) as H1
    by by apply edit_sets_prompt.
  split; [done|]. apply edit_sets_prompt; [done|]. by apply append_nonempty.
Qed.

Lemma verify_mismatch text u o :
  otp u = Some o -> PyStr.strip text <> o ->
  session (verify_otp_handler text) u = u /\
  returned (verify_otp_handler text) u = Some (Next VERIFY_OTP).
Proof.
  intros Ho Hne. destruct u; cbn in Ho; subst. unfold_handler. cbn.
  rewrite bool_decide_eq_false_2 by congruence. rewrite andb_false_r.
  split; reflexivity.
Qed.

Lemma verify_match text u o :
  otp u = Some o -> o <> "" -> PyStr.strip text = o ->
  session (verify_otp_handler text) u = with_verified (Some true) u /\
  returned (verify_otp_handler text) u = Some (Next DIMENSION_CHOICE).
Proof.
  intros Ho Hne Hs. destruct u; cbn in Ho; subst. unfold_handler. cbn.
  rewrite bool_decide_eq_true_2 by congruence.
  destruct (String.eqb_spec (PyStr.strip text) ""); [done|].
  split; reflexivity.
Qed.

(** Wrong attempts, however many, leave the bot where it was. *)
Lemma wrong_attempts (attempts : list (World * string)) u o :
  otp u = Some o ->
  Forall (fun a => PyStr.strip a.2 <> o) attempts ->
  run (map (fun a => (a.1, Text a.2)) attempts)
      {| conversation := Some VERIFY_OTP; data := u |} =
    {| conversation := Some VERIFY_OTP; data := u |}.
Proof.
  intros Ho. induction 1 as [|[W text] rest Hne _ IH]; [done|].
  cbn in Hne. destruct (verify_mismatch text u o Ho Hne) as [Hs Hr].
  cbn. unfold run_handler. cbn. by rewrite Hs, Hr.
Qed.

(** *** The gallery's bound *)

Lemma handler_keeps_bound W s x u :
  bounded u -> bounded (session ((states W s).2 x) u).
Proof.
  unfold bounded, stored_gallery. intros Hb.
  destruct u as [? ? ? ? ? ? ? g]; cbn in Hb.
  destruct s; unfold_handler; run_through; first [done | apply last_n_length].
Qed.

Lemma reply_each_session (to_send : list bytes) u :
  (reply_each to_send u).1 = (Some tt, u).
Proof.
  induction to_send as [|p rest IH]; [done|]. cbn. unfold bind, emit.
  destruct (reply_each rest u) as [[r u'] t]. by cbn in *.
Qed.

Lemma cmd_gallery_session W u : session (cmd_gallery W) u = u.
Proof.
  unfold cmd_gallery, session, bind at 1, get. cbn.
  destruct (default [] (gallery u)) as [|b l]; [done|].
  destruct (reply_media_group W _); [done|].
  unfold bind, emit.
  pose proof (reply_each_session (last_n 5 (b :: l)) u) as Hr.
  destruct (reply_each _ u) as [[r u'] t]. cbn in *. congruence.
Qed.

Lemma handle_update_keeps_bound W upd b :
  bounded (data b) -> bounded (data (handle_update W upd b).1).
Proof.
  intros Hb. destruct upd as [c|text|payload]; cbn.
  - destruct (String.eqb c "start"); [cbn; unfold bounded; cbn; lia|].
    destruct (String.eqb c "cancel"); [by destruct (conversation b)|].
    destruct (String.eqb c "gallery"); [cbn; by rewrite cmd_gallery_session|done].
  - destruct (conversation b) as [s|]; [|done].
    pose proof (handler_keeps_bound W s text (data b) Hb).
    by destruct s.
  - destruct (conversation b) as [s|]; [|done].
    pose proof (handler_keeps_bound W s payload (data b) Hb).
    destruct s; try done; cbn; by case_match.
Qed.

Lemma run_keeps_bound steps b : bounded (data b) -> bounded (data (run steps b)).
Proof.
  revert b. induction steps as [|[W upd] rest IH]; intros b Hb; [done|].
  cbn. apply IH. by apply handle_update_keeps_bound.
Qed.

Lemma gallery_bounded b :
  reachable b -> (length (stored_gallery (data b)) <= 20)%nat.
Proof. intros [steps <-]. apply run_keeps_bound. unfold bounded. cbn. lia. Qed.

(** C3, as amended.  When the gallery holds 20 entries, saving the
    current image drops exactly the first entry and appends the image:
    the gallery is its former entries 2 to 20 followed by the image,
    its length is still 20 and the saved image is the newest.  An image
    equal to the evicted one is still in the gallery exactly when it was
    among the other 19 entries or is the image just saved.  Whatever
    the updates received since the process started, the gallery never
    holds more than 20 entries. *)
Theorem save_at_capacity u oldest rest img :
  gallery u = Some (oldest :: rest) ->
  length (oldest :: rest) = 20%nat ->
  last_image u = Some img ->
  let u' := session (after_image_action "act:save") u in
  returned (after_image_action "act:save") u = Some (Next AFTER_IMAGE) /\
  gallery u' = Some (rest ++ [img]) /\
  length (rest ++ [img]) = 20%nat /\
  last (rest ++ [img]) = Some img /\
  (oldest ∈ rest ++ [img] <-> oldest ∈ rest \/ oldest = img) /\
  (forall b, reachable b -> (length (stored_gallery (data b)) <= 20)%nat).
Proof.
  intros Hg Hl Hi u'. subst u'. destruct u; cbn in Hg, Hi; subst.
  unfold_handler. cbn. split; [done|]. split.
  - f_equal. by apply (last_n_full oldest rest img).
  - split; [rewrite length_app; cbn in *; lia|]. split; [apply last_snoc|].
    split; [by rewrite elem_of_app, list_elem_of_singleton|].
    apply gallery_bounded.
Qed.

(** *** The generated OTP *)

Lemma otps_checked :
  forallb (fun n => negb (String.eqb (PyStr.of_Z n) "") &&
                    Nat.eqb (String.length (PyStr.of_Z n)) 4 &&
                    String.eqb (PyStr.strip (PyStr.of_Z n)) (PyStr.of_Z n))
    (seqZ 1000 9000) = true.
Proof. vm_compute. reflexivity. Qed.

(** A generated OTP has four characters and no surrounding whitespace. *)
Lemma generate_otp_shape W :
  generate_otp W <> "" /\
  String.length (generate_otp W) = 4%nat /\
  PyStr.strip (generate_otp W) = generate_otp W.
Proof.
  pose proof otps_checked as Hall. rewrite forallb_forall in Hall.
  specialize (Hall (randint W 1000 9999)).
  rewrite !andb_true_iff, negb_true_iff, String.eqb_neq, String.eqb_eq,
    Nat.eqb_eq in Hall.
  unfold generate_otp. apply and_assoc, Hall.
  apply list_elem_of_In, elem_of_seqZ. unfold randint.
  pose proof (Z.mod_pos_bound (Z.of_N (entropy W)) (9999 - 1000 + 1)). lia.
Qed.

(** C5, as amended.  In VERIFY_OTP with a generated OTP stored, a text
    that equals the stored OTP once its leading and trailing whitespace
    is stripped (the OTP itself is such a text) sets [verified] to true
    and moves to DIMENSION_CHOICE; any other text leaves the session
    untouched and the conversation in VERIFY_OTP, for any number of
    attempts. *)
Theorem otp_verification W0 u :
  otp u = Some (generate_otp W0) ->
  (forall text, PyStr.strip text = generate_otp W0 ->
     session (verify_otp_handler text) u = with_verified (Some true) u /\
     returned (verify_otp_handler text) u = Some (Next DIMENSION_CHOICE)) /\
  PyStr.strip (generate_otp W0) = generate_otp W0 /\
  (forall text, PyStr.strip text <> generate_otp W0 ->
     session (verify_otp_handler text) u = u /\
     returned (verify_otp_handler text) u = Some (Next VERIFY_OTP)) /\
  (forall attempts : list (World * string),
     Forall (fun a => PyStr.strip a.2 <> generate_otp W0) attempts ->
     run (map (fun a => (a.1, Text a.2)) attempts)
         {| conversation := Some VERIFY_OTP; data := u |} =
       {| conversation := Some VERIFY_OTP; data := u |}).
Proof.
  intros Ho. destruct (generate_otp_shape W0) as (Hne & _ & Hs).
  split; [intros text Ht; by apply (verify_match text u (generate_otp W0))|].
  split; [done|].
  split; [intros text Ht; by apply (verify_mismatch text u (generate_otp W0))|].
  intros attempts Ha. by apply (wrong_attempts attempts u (generate_otp W0)).
Qed.

(** C6.  Whatever the session held, the start command leaves it with
    no name, phone, otp, verified flag, dimension, last_prompt,
    last_image or gallery, and enters ASK_NAME; it does so from every
    state of the conversation. *)
Theorem cmd_start_resets W u b :
  session cmd_start u = cleared /\
  returned cmd_start u = Some (Next ASK_NAME) /\
  (name cleared = None /\ phone cleared = None /\ otp cleared = None /\
   verified cleared = None /\ dimension cleared = None /\
   last_prompt cleared = None /\ last_image cleared = None /\
   gallery cleared = None) /\
  (handle_update W (Command "start") b).1 =
    {| conversation := Some ASK_NAME; data := cleared |}.
Proof. repeat split; reflexivity. Qed.

(** C7, as amended.  When the session's dimension is absent, none of
    the three generation handlers invokes the Generation Client.  The
    AWAIT_PROMPT and REGEN_PROMPT handlers, and the EDIT_PROMPT handler
    when [last_prompt] is present and non-empty, end the conversation
    with a single message that tells the user to /start.  The
    EDIT_PROMPT handler with [last_prompt] absent or empty instead
    reports the missing prompt and returns AWAIT_PROMPT, the session
    untouched. *)
Theorem missing_dimension_aborts W c text u :
  dimension u = None ->
  invoked_generation (trace (handler_at W c text) u) = false /\
  if bool_decide (c = Edit) && negb (truthy (last_prompt u)) then
    returned (handler_at W c text) u = Some (Next AWAIT_PROMPT) /\
    session (handler_at W c text) u = u /\
    trace (handler_at W c text) u =
      [Reply "Original prompt missing. Please generate an image first."]
  else
    returned (handler_at W c text) u = Some END /\
    exists msg, trace (handler_at W c text) u = [Reply msg] /\
                PyStr.contains "/start" msg = true.
Proof.
  intros Hd. destruct u as [? ? ? ? ? lp ? ?]; cbn in Hd; subst.
  destruct c; unfold_handler; cbn.
  - split; [done|]. split; [done|]. eexists; split; [done|]. by vm_compute.
  - destruct lp as [p|]; cbn; [|done].
    destruct (String.eqb_spec p ""); cbn; [done|].
    split; [done|]. split; [done|]. eexists; split; [done|]. by vm_compute.
  - split; [done|]. split; [done|]. eexists; split; [done|]. by vm_compute.
Qed.

(** C9.  In AFTER_IMAGE the nosave action removes the session's
    [last_image]; a save action that follows finds no image, says so,
    leaves the session, and so the gallery, as it was and stays in
    AFTER_IMAGE. *)
Theorem nosave_then_save u :
  let u1 := session (after_image_action "act:nosave") u in
  returned (after_image_action "act:nosave") u = Some (Next AFTER_IMAGE) /\
  last_image u1 = None /\
  session (after_image_action "act:save") u1 = u1 /\
  gallery (session (after_image_action "act:save") u1) = gallery u /\
  returned (after_image_action "act:save") u1 = Some (Next AFTER_IMAGE) /\
  trace (after_image_action "act:save") u1 =
    [Answer; Reply "No image available to save."].
Proof. repeat split; reflexivity. Qed.

(** C10, as amended.  When the AWAIT_PROMPT handler runs with the
    session's dimension absent, it ends the conversation, and by then
    [last_prompt] has been set to the incoming text with its leading and
    trailing whitespace stripped; nothing else in the session has
    changed.  The abort is not atomic with respect to [last_prompt]. *)
Theorem prompt_stored_before_abort W text u :
  dimension u = None ->
  returned (receive_prompt_and_generate W text) u = Some END /\
  last_prompt (session (receive_prompt_and_generate W text) u) =
    Some (PyStr.strip text) /\
  session (receive_prompt_and_generate W text) u =
    with_last_prompt (Some (PyStr.strip text)) u.
Proof. intros Hd. destruct u; cbn in Hd; subst. done. Qed.

End HandlerFacts.

(** ** The claims at concrete inputs *)

(** C1 at a concrete input: regenerating while the endpoint is down. *)
Lemma generation_failure_witness :
  failed_generation (trace (handler_at offline Regenerate "a blue fox") ava) = true /\
  last_image (session (handler_at offline Regenerate "a blue fox") ava) = Some hi /\
  returned (handler_at offline Regenerate "a blue fox") ava = Some (Next AWAIT_PROMPT).
Proof.
  split; [reflexivity|].
  destruct (generation_failure_keeps_image offline Regenerate "a blue fox" ava)
    as (Hi & Hr & _); [reflexivity|].
  split; [exact Hi | exact Hr].
Defined.

(** C1, as stated, fails: after a failed edit the handler returns
    AFTER_IMAGE, whose handler takes button presses, not text. *)
Lemma edit_failure_returns_to_buttons :
  ~ (forall (L : Library) (W : World) (c : call_site) (text : string) (u : user_data),
       failed_generation (trace (handler_at W c text) u) = true ->
       last_image (session (handler_at W c text) u) = last_image u /\
       exists s, returned (handler_at W c text) u = Some (Next s) /\
                 accepts s = TextInput).
Proof.
  intros Hc.
  destruct (Hc cpython offline Edit "make it blue" ava) as (_ & s & Hr & Ha);
    [reflexivity|].
  vm_compute in Hr. injection Hr as <-. discriminate Ha.
Qed.

(** C2, as stated, fails: the token of [dim:abc] is stored although it is
    none of the nine allow-listed pairs. *)
Lemma unlisted_token_is_stored :
  ~ (forall (token : string) (u : user_data),
       dimension (session (dimension_chosen ("dim:" +:+ token)) u) = Some token ->
       token ∈ ALLOWED_DIMS).
Proof.
  intros Hc. specialize (Hc "abc" cleared eq_refl).
  apply list_elem_of_In in Hc. cbn in Hc. intuition discriminate.
Qed.

(** C3 at a concrete input: a gallery of twenty images and a new one. *)
Lemma save_at_capacity_witness :
  gallery collector = Some (hi :: replicate 19 hi) /\
  length (hi :: replicate 19 hi) = 20%nat /\
  last_image collector = Some hi /\
  gallery (session (after_image_action "act:save") collector) =
    Some (replicate 19 hi ++ [hi]) /\
  length (replicate 19 hi ++ [hi]) = 20%nat.
Proof.
  do 3 (split; [reflexivity|]).
  destruct (save_at_capacity (H:=cpython) collector hi (replicate 19 hi) hi)
    as (_ & Hg & Hl & _); [reflexivity | reflexivity | reflexivity |].
  split; [exact Hg | exact Hl].
Defined.

(** C3, as stated, fails: when the evicted image was saved more than
    once, or is the image being saved, it is still in the gallery. *)
Lemma evicted_image_may_remain :
  ~ (forall (u : user_data) (oldest : bytes) (rest : list bytes) (img : bytes),
       gallery u = Some (oldest :: rest) ->
       length (oldest :: rest) = 20%nat ->
       last_image u = Some img ->
       oldest ∉ stored_gallery (session (after_image_action "act:save") u)).
Proof.
  intros Hc.
  apply (Hc collector hi (replicate 19 hi) hi); [reflexivity..|].
  apply list_elem_of_In. cbn. by left.
Qed.

(** C4 at a concrete input: two edits of "a red fox". *)
Lemma edit_chains_witness :
  last_prompt ava = Some "a red fox" /\
  "a red fox" <> "" /\
  last_prompt (session (edit_prompt_handler offline "in snow")
                 (session (edit_prompt_handler offline "make it blue") ava)) =
    Some "a red fox. Edit: make it blue. Edit: in snow".
Proof.
  split; [reflexivity|]. split; [discriminate|].
  destruct (edit_chains offline offline ava "a red fox" "make it blue" "in snow")
    as [_ H2]; [reflexivity | discriminate |].
  exact H2.
Defined.

(** C4, as stated, fails: what is appended is the user's text without its
    surrounding whitespace, not the text as sent. *)
Lemma edit_strips_instructions :
  ~ (forall (L : Library) (W : World) (u : user_data) (p text : string),
       last_prompt u = Some p -> p <> "" ->
       last_prompt (session (edit_prompt_handler W text) u) =
         Some (p +:+ ". Edit: " +:+ text)).
Proof.
  intros Hc.
  specialize (Hc cpython offline ava "a red fox" " make it blue" eq_refl).
  vm_compute in Hc. by specialize (Hc ltac:(discriminate)).
Qed.

(** C5 at a concrete input: the OTP 4821, entered as it is. *)
Lemma otp_verification_witness :
  otp registered = Some (generate_otp online) /\
  returned (verify_otp_handler "4821") registered = Some (Next DIMENSION_CHOICE).
Proof.
  split; [reflexivity|].
  destruct (otp_verification (H:=cpython) online registered) as (Hm & _);
    [reflexivity|].
  destruct (Hm "4821") as [_ Hr]; [reflexivity|]. exact Hr.
Defined.

(** C5, as stated, fails: a text other than the stored OTP, the OTP with a
    space in front, is accepted. *)
Lemma padded_otp_is_accepted :
  ~ (forall (text : string) (u : user_data) (o : string),
       otp u = Some o -> o <> "" -> text <> o ->
       session (verify_otp_handler text) u = u /\
       returned (verify_otp_handler text) u = Some (Next VERIFY_OTP)).
Proof.
  intros Hc.
  destruct (Hc " 4821" registered "4821") as [_ Hr];
    [reflexivity | discriminate | discriminate |].
  vm_compute in Hr. discriminate.
Qed.

(** C7 at a concrete input: a first prompt in a session with no
    dimension. *)
Lemma missing_dimension_witness :
  dimension registered = None /\
  invoked_generation (trace (handler_at online InitialPrompt "a red fox") registered) = false /\
  returned (handler_at online InitialPrompt "a red fox") registered = Some END.
Proof.
  split; [reflexivity|].
  destruct (missing_dimension_aborts online InitialPrompt "a red fox" registered)
    as (Hg & Hr & _); [reflexivity|].
  split; [exact Hg | exact Hr].
Defined.

(** C7, as stated, fails: with neither dimension nor prompt in the
    session, the EDIT_PROMPT handler returns AWAIT_PROMPT. *)
Lemma edit_without_prompt_does_not_end :
  ~ (forall (L : Library) (W : World) (c : call_site) (text : string) (u : user_data),
       dimension u = None ->
       returned (handler_at W c text) u = Some END).
Proof.
  intros Hc. specialize (Hc cpython offline Edit "make it blue" cleared eq_refl).
  vm_compute in Hc. discriminate.
Qed.

(** C10 at a concrete input. *)
Lemma prompt_stored_before_abort_witness :
  dimension registered = None /\
  returned (receive_prompt_and_generate online "a red fox") registered = Some END /\
  last_prompt (session (receive_prompt_and_generate online "a red fox") registered) =
    Some "a red fox".
Proof.
  split; [reflexivity|].
  destruct (prompt_stored_before_abort online "a red fox" registered)
    as (Hr & Hp & _); [reflexivity|].
  split; [exact Hr | exact Hp].
Defined.

(** C10, as stated, fails: [last_prompt] is set to the incoming text
    without its surrounding whitespace, not to the text as it came. *)
Lemma prompt_is_stored_stripped :
  ~ (forall (L : Library) (W : World) (text : string) (u : user_data),
       dimension u = None ->
       last_prompt (session (receive_prompt_and_generate W text) u) = Some text).
Proof.
  intros Hc. specialize (Hc cpython offline " a red fox" registered eq_refl).
  vm_compute in Hc. discriminate.
Qed.

(** ** The scenarios of the specification, run *)

(** start, "Ava", "555-0100", the OTP shown, then the OTP typed back. *)
Example scenario_registration :
  run [(online, Command "start"); (online, Text "Ava");
       (online, Text "555-0100"); (online, Text "4821")] start_of_process =
    {| conversation := Some DIMENSION_CHOICE;
       data := with_verified (Some true) registered |}.
Proof. vm_compute. reflexivity. Qed.

(** The button 1024x1024, then the prompt "a red fox". *)
Example scenario_first_image :
  run [(online, CallbackQuery "dim:1024x1024"); (online, Text "a red fox")]
      {| conversation := Some DIMENSION_CHOICE;
         data := with_verified (Some true) registered |} =
    {| conversation := Some AFTER_IMAGE; data := ava |}.
Proof. vm_compute. reflexivity. Qed.

(** A payload outside the allow-list is stored, and the prompt that
    follows raises in [parse_dimension]: the conversation stays in
    AWAIT_PROMPT with the prompt recorded. *)
Example scenario_unlisted_dimension :
  run [(online, CallbackQuery "dim:abc"); (online, Text "a red fox")]
      {| conversation := Some DIMENSION_CHOICE;
         data := with_verified (Some true) registered |} =
    {| conversation := Some AWAIT_PROMPT;
       data := with_last_prompt (Some "a red fox")
                 (with_dimension (Some "abc") (with_verified (Some true) registered)) |}.
Proof. vm_compute. reflexivity. Qed.

(** ** Beyond the claims: helpers *)

Lemma otps_are_digits :
  forallb (fun n => Nat.eqb (String.length (PyStr.of_Z n)) 4 &&
                    forallb is_digit (list_ascii_of_string (PyStr.of_Z n)))
    (seqZ 1000 9000) = true.
Proof. vm_compute. reflexivity. Qed.

(** X1.  [generate_otp] always yields the decimal rendering of a number
    from 1000 to 9999: four characters, each a digit. *)
Theorem generate_otp_four_digits W :
  exists n, 1000 <= n <= 9999 /\
            generate_otp W = PyStr.of_Z n /\
            String.length (generate_otp W) = 4%nat /\
            forallb is_digit (list_ascii_of_string (generate_otp W)) = true.
Proof.
  exists (randint W 1000 9999).
  assert (1000 <= randint W 1000 9999 <= 9999) as Hr.
  { unfold randint.
    pose proof (Z.mod_pos_bound (Z.of_N (entropy W)) (9999 - 1000 + 1)). lia. }
  split; [done|]. split; [done|].
  pose proof otps_are_digits as Hall. rewrite forallb_forall in Hall.
  specialize (Hall (randint W 1000 9999)).
  rewrite andb_true_iff, Nat.eqb_eq in Hall. apply Hall.
  apply list_elem_of_In, elem_of_seqZ. lia.
Qed.

(** *** Splitting and joining *)

Lemma split_nonempty c s : PyStr.split c s <> [].
Proof.
  destruct s as [|a s]; [done|]. cbn.
  destruct (Ascii.eqb a c); [done|]. by destruct (PyStr.split c s).
Qed.

Lemma join_split c s : join c (PyStr.split c s) = s.
Proof.
  induction s as [|a s IH]; [done|]. cbn.
  destruct (Ascii.eqb_spec a c) as [->|Hne].
  - pose proof (split_nonempty c s). destruct (PyStr.split c s) as [|h t]; [done|].
    cbn in *. by rewrite IH.
  - pose proof (split_nonempty c s). destruct (PyStr.split c s) as [|h t]; [done|].
    destruct t; cbn in *; by rewrite <- IH.
Qed.

Lemma split_parts_clean c s : Forall (fun p => has_char c p = false) (PyStr.split c s).
Proof.
  induction s as [|a s IH]; [by repeat constructor|]. cbn.
  destruct (Ascii.eqb_spec a c) as [->|Hne]; [by constructor|].
  destruct (PyStr.split c s) as [|h t]; [repeat constructor; cbn|].
  - by destruct (Ascii.eqb_spec a c).
  - inversion IH; subst. constructor; [|done]. cbn.
    by destruct (Ascii.eqb_spec a c).
Qed.

Lemma split_clean c p : has_char c p = false -> PyStr.split c p = [p].
Proof.
  induction p as [|a p IH]; [done|]. cbn.
  destruct (Ascii.eqb a c); [done|]. cbn. intros Hp. by rewrite IH.
Qed.

Lemma split_app c p rest :
  has_char c p = false ->
  PyStr.split c (p +:+ String c rest) = p :: PyStr.split c rest.
Proof.
  induction p as [|a p IH].
  - intros _. change ("" +:+ String c rest) with (String c rest). cbn.
    by rewrite Ascii.eqb_refl.
  - change (String a p +:+ String c rest) with (String a (p +:+ String c rest)).
    cbn. destruct (Ascii.eqb a c); [done|]. cbn. intros Hp. by rewrite IH.
Qed.

Lemma split_join c parts :
  parts <> [] -> Forall (fun p => has_char c p = false) parts ->
  PyStr.split c (join c parts) = parts.
Proof.
  induction parts as [|p rest IH]; [done|]. intros _ Hc.
  inversion Hc as [|? ? Hp Hrest]; subst.
  destruct rest as [|q rest]; [by apply split_clean|].
  change (join c (p :: q :: rest)) with (p +:+ String c (join c (q :: rest))).
  rewrite split_app by done. by rewrite IH.
Qed.

Lemma startswith_app s p : PyStr.startswith s p = true -> exists r, s = p +:+ r.
Proof.
  revert s. induction p as [|a p IH]; intros s; [by exists s|].
  destruct s as [|b s]; [done|]. cbn.
  destruct (Ascii.eqb_spec a b) as [->|]; [|done]. cbn.
  intros Hp. destruct (IH s Hp) as [r ->]. by exists r.
Qed.

(** *** The keyboard loop *)

Lemma button_rows_cons d dims i row buttons :
  button_rows (d :: dims) i row buttons =
    if i mod 3 =? 0
    then button_rows dims (i + 1) [] (buttons ++ [row ++ [dimension_button d]])
    else button_rows dims (i + 1) (row ++ [dimension_button d]) buttons.
Proof. reflexivity. Qed.

Lemma button_rows_shape dims i row buttons :
  (i - 1) mod 3 = Z.of_nat (length row) ->
  Forall (fun r : list button => length r = 3%nat) buttons ->
  concat (button_rows dims i row buttons) =
    concat buttons ++ row ++ map dimension_button dims /\
  exists full rest,
    button_rows dims i row buttons = full ++ rest /\
    Forall (fun r : list button => length r = 3%nat) full /\
    (rest = [] \/ exists r, rest = [r] /\ (1 <= length r <= 2)%nat).
Proof.
  revert i row buttons. induction dims as [|d dims IH]; intros i row buttons Hi Hb.
  - cbn. destruct row as [|b row].
    + split; [by rewrite !app_nil_r|]. exists buttons, []. rewrite app_nil_r. eauto.
    + split; [by rewrite concat_app; cbn; rewrite !app_nil_r|].
      exists buttons, [b :: row]. split; [done|]. split; [done|]. right.
      eexists; split; [done|]. cbn in *.
      pose proof (Z.mod_pos_bound (i - 1) 3). lia.
  - rewrite button_rows_cons. destruct (Z.eqb_spec (i mod 3) 0) as [Hz|Hz].
    + destruct (IH (i + 1) [] (buttons ++ [row ++ [dimension_button d]])) as [Hc Hs].
      * cbn. revert Hz. clear. Z.div_mod_to_equations. lia.
      * apply Forall_app. split; [done|]. constructor; [|done].
        rewrite length_app. cbn. revert Hz Hi. clear. Z.div_mod_to_equations. lia.
      * split; [|done]. rewrite Hc, concat_app. cbn.
        by rewrite app_nil_r, <- !app_assoc.
    + destruct (IH (i + 1) (row ++ [dimension_button d]) buttons) as [Hc Hs].
      * rewrite length_app. cbn. revert Hz Hi. clear. Z.div_mod_to_equations. lia.
      * done.
      * split; [|done]. rewrite Hc. by rewrite <- !app_assoc.
Qed.

(** X3.  Whatever the list of dimensions, the keyboard loop of
    [verify_otp_handler] offers one button per dimension, in the list's
    order, each carrying [dim:<dimension>]; every row but possibly the
    last holds exactly three buttons, and a last shorter row holds one or
    two. *)
Theorem keyboard_rows_of_three dims :
  concat (button_rows dims 1 [] []) = map (fun d => (d, "dim:" +:+ d)) dims /\
  exists full rest,
    button_rows dims 1 [] [] = full ++ rest /\
    Forall (fun r : list button => length r = 3%nat) full /\
    (rest = [] \/ exists r, rest = [r] /\ (1 <= length r <= 2)%nat).
Proof. by destruct (button_rows_shape dims 1 [] []) as [Hc Hs]. Qed.

(** *** The handlers, beyond the claims *)

Section MoreHandlerFacts.
Context `{Library}.

(** X2.  [safe_send_image_by_bot] never raises and leaves the session
    alone; it tries the compressed photo first and, only when that fails,
    the original bytes as a document; it reports success exactly when one
    of the two went through. *)
Theorem safe_send_outcome W image caption u :
  session (safe_send_image_by_bot W image caption) u = u /\
  returned (safe_send_image_by_bot W image caption) u =
    Some (send_photo W (compress_jpeg W image) caption || send_document W image caption) /\
  trace (safe_send_image_by_bot W image caption) u =
    if send_photo W (compress_jpeg W image) caption
    then [SendPhoto (compress_jpeg W image) caption true]
    else [SendPhoto (compress_jpeg W image) caption false;
          SendDocument image caption (send_document W image caption)].
Proof.
  unfold_handler.
  destruct (send_photo W _ caption); [done|].
  by destruct (send_document W image caption).
Qed.

(** X4.  [send_otp] shows the user the very OTP it stores: any reply that
    is the shown OTP, with or without surrounding whitespace, is then
    accepted by [verify_otp_handler]. *)
Theorem shown_otp_verifies W text u :
  exists o,
    otp (session (send_otp W text) u) = Some o /\
    trace (send_otp W text) u =
      [Reply ("🔐 Your OTP is: *" +:+ o +:+ "*" +:+ nl +:+ nl +:+
              "Please type it here to verify.")] /\
    returned (send_otp W text) u = Some (Next VERIFY_OTP) /\
    forall reply,
      PyStr.strip reply = o ->
      returned (verify_otp_handler reply) (session (send_otp W text) u) =
        Some (Next DIMENSION_CHOICE).
Proof.
  exists (generate_otp W). split; [done|]. split; [done|]. split; [done|].
  intros reply Hr. destruct (generate_otp_shape W) as (Hne & _).
  by apply (verify_match reply _ (generate_otp W)).
Qed.

(** X5.  With no OTP in the session, or an empty one, [verify_otp_handler]
    rejects every text, the empty text included, and changes nothing. *)
Theorem verify_without_otp text u :
  truthy (otp u) = false ->
  session (verify_otp_handler text) u = u /\
  returned (verify_otp_handler text) u = Some (Next VERIFY_OTP) /\
  trace (verify_otp_handler text) u = [Reply "❌ Wrong OTP. Please try again."].
Proof.
  intros Ho. destruct u; cbn in Ho. unfold_handler. cbn. rewrite Ho. done.
Qed.

(** X6.  A payload that does not start with [dim:] makes
    [dimension_chosen] answer "Invalid selection." and change nothing;
    under the pattern [^dim:] of the conversation that answer is never
    sent, whatever button payload arrives in DIMENSION_CHOICE. *)
Theorem invalid_selection W payload u :
  (PyStr.startswith payload "dim:" = false ->
   session (dimension_chosen payload) u = u /\
   returned (dimension_chosen payload) u = Some (Next DIMENSION_CHOICE) /\
   trace (dimension_chosen payload) u = [Answer; Reply "Invalid selection."]) /\
  Reply "Invalid selection." ∉
    (handle_update W (CallbackQuery payload)
       {| conversation := Some DIMENSION_CHOICE; data := u |}).2.
Proof.
  split.
  - intros Hp. unfold_handler. by rewrite Hp.
  - set (b := {| conversation := Some DIMENSION_CHOICE; data := u |}).
    change (handle_update W (CallbackQuery payload) b) with
      (if PyStr.startswith payload "dim:"
       then run_handler (dimension_chosen payload) b else ignore b).
    destruct (PyStr.startswith payload "dim:") eqn:Hp; [|apply not_elem_of_nil].
    destruct (startswith_app _ _ Hp) as [token ->].
    change ((run_handler (dimension_chosen ("dim:" +:+ token)) b).2) with
      [Answer;
       Reply ("Dimension set to *" +:+ token +:+ "*." +:+ nl +:+ nl +:+
              "Now send me the text prompt (describe the image):")].
    rewrite !not_elem_of_cons. split; [done|]. split; [|apply not_elem_of_nil].
    discriminate.
Qed.

(** X7.  The empty token is accepted at selection and refused at the
    prompt: after [dim:], the next text ends the conversation, with the
    empty dimension and the prompt left in the session. *)
Theorem empty_token_ends_conversation W W' text u :
  run [(W, CallbackQuery "dim:"); (W', Text text)]
      {| conversation := Some DIMENSION_CHOICE; data := u |} =
    {| conversation := None;
       data := with_last_prompt (Some (PyStr.strip text)) (with_dimension (Some "") u) |}.
Proof. reflexivity. Qed.

(** X8.  A stored dimension parses exactly when it is two parts around a
    single [x], each of which [int] accepts; the width is the first, the
    height the second. *)
Theorem parse_dimension_Some dim w h :
  parse_dimension dim = Some (w, h) <->
  exists a b, dim = a +:+ "x" +:+ b /\
              has_char "x" a = false /\ has_char "x" b = false /\
              py_int a = Some w /\ py_int b = Some h.
Proof.
  unfold parse_dimension. split.
  - intros Hp. pose proof (join_split "x" dim) as Hj.
    pose proof (split_parts_clean "x" dim) as Hc.
    destruct (PyStr.split "x" dim) as [|a [|b [|? ?]]]; try done.
    inversion Hc as [|? ? Ha Hr]; subst. inversion Hr as [|? ? Hb _]; subst.
    exists a, b. destruct (py_int a) as [w'|]; [|done]. cbn in Hp.
    destruct (py_int b) as [h'|]; [|done]. cbn in Hp. by simplify_eq.
  - intros (a & b & -> & Ha & Hb & Hw & Hh).
    change (a +:+ "x" +:+ b) with (join "x" [a; b]).
    rewrite split_join by (by repeat constructor). by rewrite Hw, Hh.
Qed.

(** X9.  A generation handler calls the Generation Client at most once,
    with the width and height parsed from the session's dimension and with
    the prompt that it has by then stored as [last_prompt]: the stripped
    text, or at edit the previous prompt, ". Edit: " and the stripped
    text. *)
Theorem generation_request W c text u p w h :
  (p, w, h) ∈ generation_calls (trace (handler_at W c text) u) ->
  generation_calls (trace (handler_at W c text) u) = [(p, w, h)] /\
  (exists d, dimension u = Some d /\ parse_dimension d = Some (w, h)) /\
  last_prompt (session (handler_at W c text) u) = Some p /\
  p = match c with
      | Edit => default "" (last_prompt u) +:+ ". Edit: " +:+ PyStr.strip text
      | InitialPrompt | Regenerate => PyStr.strip text
      end.
Proof.
  destruct u as [? ? ? ? dim lp ? ?].
  destruct c; unfold_handler; run_through;
    rewrite ?list_elem_of_singleton; intros; simplify_eq; eauto 10;
    try (by exfalso; eapply not_elem_of_nil).
Qed.



(** X12.  [regen_prompt_handler] is all or nothing: when it does not reach
    the Generation Client (dimension absent, empty or unparseable) the
    session is exactly what it was, [last_prompt] included. *)
Theorem regen_without_generation_is_atomic W text u :
  invoked_generation (trace (regen_prompt_handler W text) u) = false ->
  session (regen_prompt_handler W text) u = u /\
  returned (regen_prompt_handler W text) u <> Some (Next AFTER_IMAGE).
Proof.
  destruct u. unfold_handler; run_through.
Qed.

(** X13.  [after_image_action] touches nothing of the session but
    [last_image] and [gallery], never calls the Generation Client and
    never ends the conversation; it raises exactly when the payload has
    no colon. *)
Theorem after_image_action_frame payload u :
  let u' := session (after_image_action payload) u in
  (name u' = name u /\ phone u' = phone u /\ otp u' = otp u /\
   verified u' = verified u /\ dimension u' = dimension u /\
   last_prompt u' = last_prompt u) /\
  invoked_generation (trace (after_image_action payload) u) = false /\
  returned (after_image_action payload) u <> Some END /\
  (returned (after_image_action payload) u = None <->
     index1 (PyStr.split1 ":" payload) = None).
Proof.
  destruct u. unfold_handler; run_through; repeat split; done.
Qed.

(** X14.  Below capacity the save action appends the current image to the
    gallery (a missing gallery counts as empty) and keeps it as
    [last_image]; so a second save stores the same image once more. *)
Theorem save_below_capacity u img :
  last_image u = Some img ->
  (length (stored_gallery u) < 20)%nat ->
  session (after_image_action "act:save") u =
    with_gallery (Some (stored_gallery u ++ [img])) u /\
  returned (after_image_action "act:save") u = Some (Next AFTER_IMAGE) /\
  session (after_image_action "act:save")
    (session (after_image_action "act:save") u) =
    with_gallery (Some (last_n 20 (stored_gallery u ++ [img; img]))) u.
Proof.
  intros Hi Hl. destruct u as [? ? ? ? ? ? ? g]; cbn in Hi; subst.
  unfold stored_gallery in *. cbn in *.
  assert (last_n 20 (default [] g ++ [img]) = default [] g ++ [img]) as Hg.
  { unfold last_n. rewrite length_app. cbn.
    replace (length (default [] g) + 1 - 20)%nat with 0%nat by lia. done. }
  unfold last_n in *. unfold_handler. cbn. rewrite !Hg. split; [done|]. split; [done|].
  by rewrite <- app_assoc.
Qed.

(** X15.  The action after [act:] decides the next state: EDIT_PROMPT for
    edit, REGEN_PROMPT for regen, AFTER_IMAGE for everything else; only
    save and nosave change the session, and an action that is none of the
    four is answered "Unknown action.". *)
Theorem action_menu a u :
  returned (after_image_action ("act:" +:+ a)) u =
    Some (Next (if String.eqb a "edit" then EDIT_PROMPT
                else if String.eqb a "regen" then REGEN_PROMPT
                else AFTER_IMAGE)) /\
  (a <> "save" -> a <> "nosave" -> session (after_image_action ("act:" +:+ a)) u = u) /\
  (a <> "edit" -> a <> "save" -> a <> "nosave" -> a <> "regen" ->
   trace (after_image_action ("act:" +:+ a)) u = [Answer; Reply "Unknown action."]).
Proof.
  destruct u as [? ? ? ? ? ? img ?]. unfold_handler.
  change (index1 (PyStr.split1 ":" ("act:" +:+ a))) with (Some a). cbn.
  destruct (String.eqb_spec a "edit") as [->|He]; [done|].
  destruct (String.eqb_spec a "save") as [->|Hs]; [by destruct img|].
  destruct (String.eqb_spec a "nosave") as [->|Hn]; [done|].
  by destruct (String.eqb_spec a "regen") as [->|Hr].
Qed.

(** X16.  With [last_prompt] absent or empty, [edit_prompt_handler] reports
    the missing prompt, returns AWAIT_PROMPT and changes nothing, whatever
    the dimension. *)
Theorem edit_without_prompt W text u :
  truthy (last_prompt u) = false ->
  session (edit_prompt_handler W text) u = u /\
  returned (edit_prompt_handler W text) u = Some (Next AWAIT_PROMPT) /\
  trace (edit_prompt_handler W text) u =
    [Reply "Original prompt missing. Please generate an image first."].
Proof.
  intros Hp. destruct u as [? ? ? ? ? lp ? ?]. cbn in Hp.
  unfold_handler. cbn. destruct lp as [p|]; cbn in *; [|done]. by rewrite Hp.
Qed.

Lemma reply_each_run (to_send : list bytes) u :
  reply_each to_send u = (Some tt, u, map ReplyPhoto to_send).
Proof.
  induction to_send as [|p rest IH]; [done|]. cbn. unfold bind, emit.
  by rewrite IH.
Qed.

Lemma cmd_gallery_run W u :
  cmd_gallery W u =
    (Some tt, u,
     match stored_gallery u with
     | [] => [Reply "📭 Your gallery is empty."]
     | _ =>
         let to_send := last_n 5 (stored_gallery u) in
         if reply_media_group W to_send then [MediaGroup to_send true]
         else MediaGroup to_send false :: map ReplyPhoto to_send
     end).
Proof.
  unfold cmd_gallery, bind at 1, get, stored_gallery. cbn.
  destruct (default [] (gallery u)) as [|b l]; [done|].
  cbn zeta. destruct (reply_media_group W _); [done|].
  unfold bind, emit. by rewrite reply_each_run.
Qed.

(** X17.  [cmd_gallery] leaves the session alone.  An empty or missing
    gallery is answered with one message; otherwise the images sent are
    the last five saved at most, in the order saved, as one media group
    or, when that fails, one photo each in the same order. *)
Theorem cmd_gallery_sends_last_five W u :
  session (cmd_gallery W) u = u /\
  returned (cmd_gallery W) u = Some tt /\
  trace (cmd_gallery W) u =
    match stored_gallery u with
    | [] => [Reply "📭 Your gallery is empty."]
    | _ =>
        let to_send := last_n 5 (stored_gallery u) in
        if reply_media_group W to_send then [MediaGroup to_send true]
        else MediaGroup to_send false :: map ReplyPhoto to_send
    end /\
  (length (last_n 5 (stored_gallery u)) <= 5)%nat /\
  last_n 5 (stored_gallery u) `suffix_of` stored_gallery u.
Proof.
  unfold session, returned, trace. rewrite cmd_gallery_run.
  repeat split; [apply last_n_length|]. unfold last_n. apply suffix_drop.
Qed.

(** *** The conversation, beyond the claims *)


(** X19.  A state ignores the kind of update it has no handler for: a
    button press in a text state, a text in a button state, and a button
    payload that does not match the state's pattern.  Nothing is sent and
    nothing changes. *)
Theorem unexpected_update_ignored W s u x :
  handle_update W (match accepts s with
                   | TextInput => CallbackQuery x
                   | ButtonInput => Text x
                   end) {| conversation := Some s; data := u |} =
    ({| conversation := Some s; data := u |}, []) /\
  (PyStr.startswith x (states W s).1.2 = false ->
   handle_update W (CallbackQuery x) {| conversation := Some s; data := u |} =
     ({| conversation := Some s; data := u |}, [])).
Proof.
  split; [by destruct s|].
  intros Hp. destruct s; cbn in *; try done; by rewrite Hp.
Qed.









(** X22.  From ASK_NAME, a name, a phone number and then the OTP that
    [send_otp] generated lead to DIMENSION_CHOICE with the stripped name
    and phone, that OTP and [verified] in the session, the rest of the
    session as it was. *)
Theorem registration_flow W1 W2 W3 name_text phone_text u :
  run [(W1, Text name_text); (W2, Text phone_text); (W3, Text (generate_otp W2))]
      {| conversation := Some ASK_NAME; data := u |} =
    {| conversation := Some DIMENSION_CHOICE;
       data := with_verified (Some true)
                 (with_otp (Some (generate_otp W2))
                    (with_phone (Some (PyStr.strip phone_text))
                       (with_name (Some (PyStr.strip name_text)) u))) |}.
Proof.
  destruct (generate_otp_shape W2) as (Hne & _ & Hs).
  set (u2 := with_otp (Some (generate_otp W2))
               (with_phone (Some (PyStr.strip phone_text))
                  (with_name (Some (PyStr.strip name_text)) u))).
  destruct (verify_match (generate_otp W2) u2 (generate_otp W2)) as [Hv Hr];
    [done..|].
  change (run _ _) with
    {| conversation := settle (Some VERIFY_OTP)
                         (returned (verify_otp_handler (generate_otp W2)) u2);
       data := session (verify_otp_handler (generate_otp W2)) u2 |}.
  by rewrite Hv, Hr.
Qed.

End MoreHandlerFacts.

(** ** The further properties at concrete inputs *)

(** X5 at a concrete input: a session with no OTP at all. *)
Lemma verify_without_otp_witness :
  truthy (otp cleared) = false /\
  session (verify_otp_handler "4821") cleared = cleared /\
  returned (verify_otp_handler "4821") cleared = Some (Next VERIFY_OTP).
Proof.
  split; [reflexivity|].
  destruct (verify_without_otp "4821" cleared) as (Hs & Hr & _); [reflexivity|].
  split; [exact Hs | exact Hr].
Defined.

(** X9 at a concrete input: an edit of "a red fox" at 1024x1024. *)
Lemma generation_request_witness :
  ("a red fox. Edit: make it blue", 1024, 1024) ∈
    generation_calls (trace (handler_at online Edit "make it blue") ava) /\
  generation_calls (trace (handler_at online Edit "make it blue") ava) =
    [("a red fox. Edit: make it blue", 1024, 1024)] /\
  last_prompt (session (handler_at online Edit "make it blue") ava) =
    Some "a red fox. Edit: make it blue".
Proof.
  assert (("a red fox. Edit: make it blue", 1024, 1024) ∈
            generation_calls (trace (handler_at online Edit "make it blue") ava)) as Hin
    by (vm_compute; apply list_elem_of_here).
  split; [exact Hin|].
  destruct (generation_request online Edit "make it blue" ava _ _ _ Hin)
    as (Hc & _ & Hp & _).
  split; [exact Hc | exact Hp].
Defined.



(** X12 at a concrete input: regenerate in a session with no dimension. *)
Lemma regen_atomic_witness :
  invoked_generation (trace (regen_prompt_handler online "a blue fox") registered) = false /\
  session (regen_prompt_handler online "a blue fox") registered = registered.
Proof.
  split; [reflexivity|].
  destruct (regen_without_generation_is_atomic online "a blue fox" registered)
    as [Hs _]; [reflexivity|].
  exact Hs.
Defined.

(** X14 at a concrete input: the first save of a session. *)
Lemma save_below_capacity_witness :
  last_image ava = Some hi /\
  (length (stored_gallery ava) < 20)%nat /\
  gallery (session (after_image_action "act:save") ava) = Some [hi].
Proof.
  split; [reflexivity|]. split; [cbn; lia|].
  destruct (save_below_capacity ava hi) as (Hs & _);
    [reflexivity | cbn; lia |].
  rewrite Hs. reflexivity.
Defined.

(** X16 at a concrete input: an edit before any prompt. *)
Lemma edit_without_prompt_witness :
  truthy (last_prompt registered) = false /\
  session (edit_prompt_handler online "make it blue") registered = registered /\
  returned (edit_prompt_handler online "make it blue") registered =
    Some (Next AWAIT_PROMPT).
Proof.
  split; [reflexivity|].
  destruct (edit_without_prompt online "make it blue" registered) as (Hs & Hr & _);
    [reflexivity|].
  split; [exact Hs | exact Hr].
Defined.


